(** * The menu components of packages/menu/src/menu.tsx

    A shallow embedding of the component functions of [menu.tsx]: every
    component is a function from its props (and, for a [forwardRef]
    component, its ref) to the React element it returns.  The hooks of
    [./use-menu] and the theming helpers of [@chakra-ui/system] are
    interfaces the file consumes; they are classes of functions here. *)

From Stdlib Require Import List String Bool QArith Lia.
Import ListNotations.
Local Open Scope string_scope.
Local Open Scope list_scope.

Set Implicit Arguments.
Set Warnings "-register-all".

(** ** JavaScript values *)

(** The components declared in [menu.tsx]. *)
Module Comp.
Inductive t :=
| Menu | StyledMenuButton | MenuButton | MenuList | StyledMenuItem
| MenuItem | CheckIcon | MenuItemOption | MenuOptionGroup | MenuGroup
| MenuCommand | MenuIcon | MenuDivider.

(** [React.FC] components are plain functions; [forwardRef] returns an
    object. *)
Definition is_fc (c : t) : bool :=
  match c with
  | Menu | CheckIcon | MenuOptionGroup | MenuIcon | MenuDivider => true
  | _ => false
  end.
End Comp.

(** What can stand in the type position of an element besides a host tag. *)
Inductive component :=
| Own (c : Comp.t)                 (* a component of this file *)
| Chakra (tag : string)            (* chakra.button, chakra.span, ... *)
| Motion                           (* chakra(motion.div) *)
| MenuProvider                     (* from ./use-menu *)
| StylesProvider                   (* from @chakra-ui/system *)
| External (name : string) (callable : bool). (* a caller's component *)

Inductive value :=
| VUndef
| VNull
| VBool (b : bool)
| VNum (q : Q)
| VStr (s : string)
| VFun (id : nat)                  (* a caller's function *)
| VComp (c : component)
| VArr (l : list value)
| VObj (o : list (string * value))
| VElem (type : value) (props : list (string * value)).

(** An object is the list of its entries in insertion order; where a key
    occurs twice the later entry is the object's, as with object spread
    and with JSX attributes. *)
Definition obj := list (string * value).

Definition truthy (v : value) : bool :=
  match v with
  | VUndef | VNull => false
  | VBool b => b
  | VNum q => negb (Qnum q =? 0)%Z
  | VStr s => negb (s =? "")
  | _ => true
  end.

(** [a || b], [a && b], [a ?? b] *)
Definition js_or (a b : value) : value := if truthy a then a else b.
Definition js_and (a b : value) : value := if truthy a then b else a.
Definition nullish (a b : value) : value :=
  match a with VUndef | VNull => b | _ => a end.

(** [typeof v === "function"] *)
Definition isFunction (v : value) : bool :=
  match v with
  | VFun _ => true
  | VComp (Own c) => Comp.is_fc c
  | VComp (External _ callable) => callable
  | _ => false
  end.

(** ** Objects *)

Fixpoint get (k : string) (o : obj) : option value :=
  match o with
  | [] => None
  | (k', v) :: o' =>
      match get k o' with
      | Some w => Some w
      | None => if k =? k' then Some v else None
      end
  end.

(** [o.k] and [o[k]] *)
Definition prop (k : string) (o : obj) : value :=
  match get k o with Some v => v | None => VUndef end.

Definition has_key (k : string) (ks : list string) : bool :=
  existsb (String.eqb k) ks.

(** The rest of a destructuring [const { k1, ..., kn, ...rest } = o]. *)
Definition omit (ks : list string) (o : obj) : obj :=
  filter (fun e => negb (has_key (fst e) ks)) o.

(** [v.k] on a value, and the entries [{...v}] copies: those of an object,
    none for [undefined], [null], booleans, numbers and functions.  The
    values spread in this file are style objects or [undefined]. *)
Definition member (k : string) (v : value) : value :=
  match v with VObj o => prop k o | _ => VUndef end.

Definition spread (v : value) : obj :=
  match v with VObj o => o | _ => [] end.

(** [v?.k] *)
Definition opt_member (k : string) (v : value) : value :=
  match v with VUndef | VNull => VUndef | _ => member k v end.

(** A destructuring default [k = d]. *)
Definition with_default (d v : value) : value :=
  match v with VUndef => d | _ => v end.

(** ** React

    [createElement], [isValidElement], [Children.only] and [cloneElement]
    are React's own; they are written out as React documents them. *)

(** [React.createElement(type, config, ...children)], which a JSX
    expression stands for: the attributes in source order, then the
    children when the expression has any.  [ref] stays among the
    attributes, from where a [forwardRef] component is handed it. *)
Definition jsx (type : value) (config : obj) (children : list value) : value :=
  VElem type
    (match children with
     | [] => config
     | [c] => config ++ [("children", c)]
     | _ => config ++ [("children", VArr children)]
     end).

Definition isValidElement (v : value) : bool :=
  match v with VElem _ _ => true | _ => false end.

Inductive error :=
| ChildrenOnly.  (* "React.Children.only expected to receive a single
                     React element child." *)

Definition result := (error + value)%type.

(** [React.Children.only(children)] *)
Definition Children_only (children : value) : result :=
  if isValidElement children then inr children else inl ChildrenOnly.

(** [React.cloneElement(element, config)] with no child argument: the
    element's props with those of [config] over them.  The file calls it
    on a valid element only. *)
Definition cloneElement (element : value) (config : obj) : value :=
  match element with
  | VElem type props => VElem type (props ++ config)
  | _ => element
  end.

Definition elem_type (e : value) : value :=
  match e with VElem t _ => t | _ => VUndef end.

Definition elem_props (e : value) : obj :=
  match e with VElem _ p => p | _ => [] end.

(** [e.props.k] *)
Definition attr (k : string) (e : value) : value := prop k (elem_props e).

(** ** The consumed modules *)

(** The hooks of [./use-menu].  Their results depend on the state of the
    enclosing menu, which one render does not change: an instance stands
    for the hooks at one place of one render.  [useMenuContext] and
    [useMenuPositioner] take no argument. *)
Class UseMenu := {
  useMenu : obj -> obj;
  useMenuButton : obj -> value -> obj;
  useMenuContext : obj;
  useMenuItem : obj -> value -> obj;
  useMenuList : obj -> value -> obj;
  useMenuOption : obj -> value -> obj;
  useMenuOptionGroup : obj -> obj;
  useMenuPositioner : obj
}.

(** The theming helpers of [@chakra-ui/system]. *)
Class ChakraSystem := {
  useMultiStyleConfig : string -> obj -> obj;
  useStyles : obj;
  omitThemingProps : obj -> obj
}.

(** What the JavaScript engine does with the caller's values: applying a
    function value, and the string conversion of a value that is not a
    string. *)
Class Engine := {
  call : value -> list value -> value;
  to_string : value -> string
}.

Section Components.

Context {hooks : UseMenu} {sys : ChakraSystem} {js : Engine}.

(** The text a class-name argument contributes: [className] is a string
    wherever the props' types declare it. *)
Definition class_text (v : value) : string :=
  match v with VStr s => s | _ => to_string v end.

(** Modelled from the spec: [cx] of [@chakra-ui/utils] is not under src/;
    it is the file's class-name concatenation, the truthy arguments joined
    by one space. *)
Definition cx (classNames : list value) : string :=
  String.concat " " (map class_text (filter truthy classNames)).

(** Modelled from the spec: [runIfFn] of [@chakra-ui/utils] is not under
    src/; function children are invoked with the arguments, anything else
    is returned as given. *)
Definition runIfFn (valueOrFn : value) (args : list value) : value :=
  if isFunction valueOrFn then call valueOrFn args else valueOrFn.

(** *** Menu *)

Definition Menu (props : obj) : value :=
  let children := prop "children" props in
  let styles := useMultiStyleConfig "Menu" props in
  let ownProps := omitThemingProps props in
  let ctx := useMenu ownProps in
  let context := ctx in
  let isOpen := prop "isOpen" context in
  let onClose := prop "onClose" context in
  let forceUpdate := prop "forceUpdate" context in
  jsx (VComp MenuProvider) [("value", VObj context)]
    [jsx (VComp StylesProvider) [("value", VObj styles)]
       [runIfFn children
          [VObj [("isOpen", isOpen); ("onClose", onClose);
                 ("forceUpdate", forceUpdate)]]]].

(** *** MenuButton *)

Definition StyledMenuButton (props : obj) (ref : value) : value :=
  let styles := useStyles in
  jsx (VComp (Chakra "button"))
    ([("ref", ref)] ++ props ++
     [("__css", VObj ([("display", VStr "inline-flex");
                       ("appearance", VStr "none");
                       ("alignItems", VStr "center");
                       ("outline", VNum 0);
                       ("transition", VStr "all 250ms")]
                      ++ spread (prop "button" styles)))])
    [].

Definition MenuButton (props : obj) (ref : value) : value :=
  let As := prop "as" props in
  let rest := omit ["children"; "as"] props in
  let buttonProps := useMenuButton rest ref in
  let ButtonComp := js_or As (VComp (Own Comp.StyledMenuButton)) in
  jsx ButtonComp
    (buttonProps ++
     [("className",
       VStr (cx [VStr "chakra-menu__menu-button"; prop "className" props]))])
    [jsx (VComp (Chakra "span"))
       [("__css", VObj [("pointerEvents", VStr "none");
                        ("flex", VStr "1 1 auto")])]
       [prop "children" props]].

(** *** MenuList *)

Definition motionVariants : obj :=
  [("enter",
    VObj [("visibility", VStr "visible");
          ("opacity", VNum 1);
          ("scale", VNum 1);
          ("transition",
           VObj [("duration", VNum 0.2);
                 ("ease", VArr [VNum 0.4; VNum 0; VNum 0.2; VNum 1])])]);
   ("exit",
    VObj [("transitionEnd", VObj [("visibility", VStr "hidden")]);
          ("opacity", VNum 0);
          ("scale", VNum 0.8);
          ("transition",
           VObj [("duration", VNum 0.1);
                 ("easings", VStr "easeOut")])])].

Definition MenuList (props : obj) (ref : value) : value :=
  let isOpen := prop "isOpen" useMenuContext in
  let onTransitionEnd := prop "onTransitionEnd" useMenuContext in
  let listProps := useMenuList props ref in
  let positionerProps := useMenuPositioner in
  let styles := useStyles in
  jsx (VComp (Chakra "div"))
    (positionerProps ++
     [("__css",
       VObj [("zIndex", opt_member "zIndex" (prop "list" styles))])])
    [jsx (VComp Motion)
       (listProps ++
        [("onUpdate", onTransitionEnd);
         ("className",
          VStr (cx [VStr "chakra-menu__menu-list";
                    prop "className" listProps]));
         ("variants", VObj motionVariants);
         ("initial", VBool false);
         ("animate", if truthy isOpen then VStr "enter" else VStr "exit");
         ("__css", VObj ([("outline", VNum 0)]
                         ++ spread (prop "list" styles)))])
       []].

(** *** MenuItem *)

Definition StyledMenuItem (props : obj) (ref : value) : value :=
  let type := prop "type" props in
  let rest := omit ["type"] props in
  let styles := useStyles in
  let btnType :=
    if truthy (prop "as" rest) then nullish type VUndef else VStr "button" in
  let buttonStyles :=
    [("textDecoration", VStr "none");
     ("color", VStr "inherit");
     ("userSelect", VStr "none");
     ("display", VStr "flex");
     ("width", VStr "100%");
     ("alignItems", VStr "center");
     ("textAlign", VStr "left");
     ("flex", VStr "0 0 auto");
     ("outline", VNum 0)] ++ spread (prop "item" styles) in
  jsx (VComp (Chakra "button"))
    ([("ref", ref); ("type", btnType)] ++ rest ++
     [("__css", VObj buttonStyles)])
    [].

Definition MenuItem (props : obj) (ref : value) : value :=
  let icon := prop "icon" props in
  let iconSpacing := with_default (VStr "0.75rem") (prop "iconSpacing" props) in
  let command := prop "command" props in
  let children := prop "children" props in
  let rest := omit ["icon"; "iconSpacing"; "command"; "children"] props in
  let menuItemProps := useMenuItem rest ref in
  let shouldWrap := js_or icon command in
  let _children :=
    if truthy shouldWrap
    then jsx (VComp (Chakra "span"))
           [("pointerEvents", VStr "none"); ("flex", VStr "1")] [children]
    else children in
  jsx (VComp (Own Comp.StyledMenuItem))
    (menuItemProps ++
     [("className",
       VStr (cx [VStr "chakra-menu__menuitem";
                 prop "className" menuItemProps]))])
    [js_and icon
       (jsx (VComp (Own Comp.MenuIcon))
          [("fontSize", VStr "0.8em"); ("marginEnd", iconSpacing)] [icon]);
     _children;
     js_and command (jsx (VComp (Own Comp.MenuCommand)) [] [command])].

(** *** MenuItemOption *)

Definition CheckIcon (props : obj) : value :=
  jsx (VStr "svg")
    ([("viewBox", VStr "0 0 14 14"); ("width", VStr "1em");
      ("height", VStr "1em")] ++ props)
    [jsx (VStr "polygon")
       [("fill", VStr "currentColor");
        ("points",
         VStr "5.5 11.9993304 14 3.49933039 12.5 2 5.5 8.99933039 1.5 4.9968652 0 6.49933039")]
       []].

Definition MenuItemOption (props : obj) (ref : value) : value :=
  let icon := prop "icon" props in
  let iconSpacing := with_default (VStr "0.75rem") (prop "iconSpacing" props) in
  let rest := omit ["icon"; "iconSpacing"] props in
  let optionProps := useMenuOption rest ref in
  jsx (VComp (Own Comp.StyledMenuItem))
    (optionProps ++
     [("className",
       VStr (cx [VStr "chakra-menu__menuitem-option";
                 prop "className" rest]))])
    [jsx (VComp (Own Comp.MenuIcon))
       [("fontSize", VStr "0.8em");
        ("marginEnd", iconSpacing);
        ("opacity",
         if truthy (prop "isChecked" props) then VNum 1 else VNum 0)]
       [js_or icon (jsx (VComp (Own Comp.CheckIcon)) [] [])];
     jsx (VComp (Chakra "span")) [("flex", VStr "1")]
       [prop "children" optionProps]].

(** *** MenuOptionGroup and MenuGroup *)

Definition MenuOptionGroup (props : obj) : value :=
  let className := prop "className" props in
  let title := prop "title" props in
  let rest := omit ["className"; "title"] props in
  let ownProps := useMenuOptionGroup rest in
  jsx (VComp (Own Comp.MenuGroup))
    ([("title", title);
      ("className",
       VStr (cx [VStr "chakra-menu__option-group"; className]))]
     ++ ownProps)
    [].

Definition MenuGroup (props : obj) (ref : value) : value :=
  let title := prop "title" props in
  let children := prop "children" props in
  let className := prop "className" props in
  let rest := omit ["title"; "children"; "className"] props in
  let _className := cx [VStr "chakra-menu__group__title"; className] in
  let styles := useStyles in
  jsx (VComp (Chakra "div"))
    [("ref", ref); ("className", VStr "chakra-menu__group");
     ("role", VStr "group")]
    [js_and title
       (jsx (VComp (Chakra "p"))
          ([("className", VStr _className)] ++ rest ++
           [("__css", prop "groupTitle" styles)])
          [title]);
     children].

(** *** MenuCommand, MenuIcon, MenuDivider *)

Definition MenuCommand (props : obj) (ref : value) : value :=
  let styles := useStyles in
  jsx (VComp (Chakra "span"))
    ([("ref", ref)] ++ props ++
     [("__css", prop "command" styles);
      ("className", VStr "chakra-menu__command")])
    [].

Definition MenuIcon (props : obj) : result :=
  let className := prop "className" props in
  let children := prop "children" props in
  let rest := omit ["className"; "children"] props in
  match Children_only children with
  | inl e => inl e
  | inr child =>
      let clone :=
        if isValidElement child
        then cloneElement child
               [("focusable", VStr "false");
                ("aria-hidden", VBool true);
                ("className",
                 VStr (cx [VStr "chakra-menu__icon";
                           attr "className" child]))]
        else VNull in
      let _className := cx [VStr "chakra-menu__icon-wrapper"; className] in
      inr (jsx (VComp (Chakra "span"))
             ([("className", VStr _className)] ++ rest ++
              [("__css", VObj [("flexShrink", VNum 0)])])
             [clone])
  end.

Definition MenuDivider (props : obj) : value :=
  let className := prop "className" props in
  let rest := omit ["className"] props in
  let styles := useStyles in
  jsx (VComp (Chakra "hr"))
    ([("role", VStr "separator");
      ("aria-orientation", VStr "horizontal");
      ("className", VStr (cx [VStr "chakra-menu__divider"; className]))]
     ++ rest ++
     [("__css", prop "divider" styles)])
    [].

End Components.

(** ** The module's exports *)

(** The [export const] declarations, in source order. *)
Definition exports : list (string * Comp.t) :=
  [("Menu", Comp.Menu);
   ("MenuButton", Comp.MenuButton);
   ("MenuList", Comp.MenuList);
   ("MenuItem", Comp.MenuItem);
   ("MenuItemOption", Comp.MenuItemOption);
   ("MenuOptionGroup", Comp.MenuOptionGroup);
   ("MenuGroup", Comp.MenuGroup);
   ("MenuCommand", Comp.MenuCommand);
   ("MenuIcon", Comp.MenuIcon);
   ("MenuDivider", Comp.MenuDivider)].

Fixpoint exported (name : string) (l : list (string * Comp.t))
  : option Comp.t :=
  match l with
  | [] => None
  | (n, c) :: l' => if name =? n then Some c else exported name l'
  end.

(** The [displayName] of a component.  Every assignment stands under
    [if (__DEV__)], the build flag of [@chakra-ui/utils]: in a development
    build each exported component gets its name, in a production build no
    assignment runs and no component has one. *)
Definition displayName (__DEV__ : bool) (c : Comp.t) : option string :=
  if __DEV__
  then match c with
       | Comp.Menu => Some "Menu"
       | Comp.MenuButton => Some "MenuButton"
       | Comp.MenuList => Some "MenuList"
       | Comp.MenuItem => Some "MenuItem"
       | Comp.MenuItemOption => Some "MenuItemOption"
       | Comp.MenuOptionGroup => Some "MenuOptionGroup"
       | Comp.MenuGroup => Some "MenuGroup"
       | Comp.MenuCommand => Some "MenuCommand"
       | Comp.MenuIcon => Some "MenuIcon"
       | Comp.MenuDivider => Some "MenuDivider"
       | Comp.StyledMenuButton | Comp.StyledMenuItem | Comp.CheckIcon => None
       end
  else None.

(** ** Searching an output *)

(** Every element of a tree: the elements among the children, among the
    other attributes and inside arrays and objects. *)
Fixpoint elements (v : value) : list value :=
  match v with
  | VArr l => flat_map elements l
  | VObj o => flat_map (fun e => elements (snd e)) o
  | VElem t p => v :: flat_map (fun e => elements (snd e)) p
  | _ => []
  end.

(** Some element of the tree has the attribute [k]. *)
Definition has_attr (k : string) (tree : value) : bool :=
  existsb (fun e => match get k (elem_props e) with
                    | Some _ => true
                    | None => false
                    end)
          (elements tree).

(** No object and no element anywhere in the value has a [role] entry. *)
Fixpoint role_free (v : value) : bool :=
  match v with
  | VArr l => forallb role_free l
  | VObj o =>
      forallb (fun e => negb (fst e =? "role") && role_free (snd e)) o
  | VElem t p =>
      role_free t &&
      forallb (fun e => negb (fst e =? "role") && role_free (snd e)) p
  | _ => true
  end.

Definition no_role (o : obj) : bool := role_free (VObj o).

Section Rendering.

Context {hooks : UseMenu} {sys : ChakraSystem} {js : Engine}.

(** Rendering an element whose type is a component of this file calls the
    component with the element's props; [ref] and [key] are not props, and
    only a [forwardRef] component is handed the ref, [null] when the
    element has none. *)
Definition render_own (c : Comp.t) (attrs : obj) : result :=
  let props := omit ["ref"; "key"] attrs in
  let ref := with_default VNull (prop "ref" attrs) in
  match c with
  | Comp.Menu => inr (Menu props)
  | Comp.StyledMenuButton => inr (StyledMenuButton props ref)
  | Comp.MenuButton => inr (MenuButton props ref)
  | Comp.MenuList => inr (MenuList props ref)
  | Comp.StyledMenuItem => inr (StyledMenuItem props ref)
  | Comp.MenuItem => inr (MenuItem props ref)
  | Comp.CheckIcon => inr (CheckIcon props)
  | Comp.MenuItemOption => inr (MenuItemOption props ref)
  | Comp.MenuOptionGroup => inr (MenuOptionGroup props)
  | Comp.MenuGroup => inr (MenuGroup props ref)
  | Comp.MenuCommand => inr (MenuCommand props ref)
  | Comp.MenuIcon => MenuIcon props
  | Comp.MenuDivider => inr (MenuDivider props)
  end.

(** The consumed modules bring in no role of their own: what they return
    from role-free arguments is role-free. *)
Record role_free_env : Prop := {
  rf_useMenu : forall p, no_role p = true -> no_role (useMenu p) = true;
  rf_useMenuButton : forall p r,
    no_role p = true -> role_free r = true ->
    no_role (useMenuButton p r) = true;
  rf_useMenuContext : no_role useMenuContext = true;
  rf_useMenuItem : forall p r,
    no_role p = true -> role_free r = true ->
    no_role (useMenuItem p r) = true;
  rf_useMenuList : forall p r,
    no_role p = true -> role_free r = true ->
    no_role (useMenuList p r) = true;
  rf_useMenuOption : forall p r,
    no_role p = true -> role_free r = true ->
    no_role (useMenuOption p r) = true;
  rf_useMenuOptionGroup : forall p,
    no_role p = true -> no_role (useMenuOptionGroup p) = true;
  rf_useMenuPositioner : no_role useMenuPositioner = true;
  rf_useMultiStyleConfig : forall name p,
    no_role p = true -> no_role (useMultiStyleConfig name p) = true;
  rf_useStyles : no_role useStyles = true;
  rf_omitThemingProps : forall p,
    no_role p = true -> no_role (omitThemingProps p) = true;
  rf_call : forall f args,
    role_free f = true -> role_free (VArr args) = true ->
    role_free (call f args) = true
}.

End Rendering.

(** ** A sample environment

    A closed menu whose hooks hand the props through with the ref, an
    empty theme, and an engine whose functions return [null]. *)
Definition closed_menu : obj :=
  [("isOpen", VBool false); ("onClose", VFun 0); ("forceUpdate", VNull);
   ("onTransitionEnd", VFun 1)].

Definition sample_hooks : UseMenu :=
  {| useMenu := fun _ => closed_menu;
     useMenuButton := fun p r => p ++ [("ref", r)];
     useMenuContext := closed_menu;
     useMenuItem := fun p r => p ++ [("ref", r)];
     useMenuList := fun p r => p ++ [("ref", r)];
     useMenuOption := fun p r => p ++ [("ref", r)];
     useMenuOptionGroup := fun p => p;
     useMenuPositioner := [] |}.

Definition sample_system : ChakraSystem :=
  {| useMultiStyleConfig := fun _ _ => [];
     useStyles := [];
     omitThemingProps := omit ["styleConfig"; "size"; "variant"; "colorScheme"] |}.

Definition sample_engine : Engine :=
  {| call := fun _ _ => VNull;
     to_string := fun _ => "[object Object]" |}.

(** ** What the stated properties speak of *)

(** Element types, as [React.ElementType] has them: a tag name or a
    component.  Each is truthy. *)
Definition is_element_type (v : value) : bool :=
  match v with
  | VStr s => negb (s =? "")
  | VComp _ => true
  | _ => false
  end.

(** The element types that put a node into the DOM: host tags, the
    [chakra] factory's components and the animated [div]. *)
Definition is_dom_type (t : value) : bool :=
  match t with
  | VStr _ | VComp (Chakra _) | VComp Motion => true
  | _ => false
  end.

(** The span MenuItem puts around its children. *)
Definition wrapping_span (children : value) : value :=
  VElem (VComp (Chakra "span"))
    [("pointerEvents", VStr "none"); ("flex", VStr "1");
     ("children", children)].

(** The wrapper MenuItem puts around a truthy [icon]. *)
Definition item_icon_wrapper (props : obj) : value :=
  VElem (VComp (Own Comp.MenuIcon))
    [("fontSize", VStr "0.8em");
     ("marginEnd", with_default (VStr "0.75rem") (prop "iconSpacing" props));
     ("children", prop "icon" props)].

(** The components whose JSX writes a literal [role]. *)
Definition writes_role (c : Comp.t) : bool :=
  match c with
  | Comp.MenuGroup | Comp.MenuDivider => true
  | _ => false
  end.

(** The element kinds the interface lists, with the name each goes by. *)
Definition element_kinds : list (string * string) :=
  [("menu container", "Menu");
   ("button", "MenuButton");
   ("list", "MenuList");
   ("item", "MenuItem");
   ("checkable item", "MenuItemOption");
   ("option group", "MenuOptionGroup");
   ("divider", "MenuDivider");
   ("command label", "MenuCommand");
   ("icon", "MenuIcon")].

(** The semantic options the interface names: icon, command text, the
    disabled and focusable flags, the grouping title. *)
Definition semantic_options : list string :=
  ["icon"; "iconSpacing"; "command"; "isDisabled"; "isFocusable"; "title"].

(** The hooks of an open menu. *)
Definition open_hooks : UseMenu :=
  {| useMenu := fun _ => [("isOpen", VBool true)];
     useMenuButton := fun p r => p ++ [("ref", r)];
     useMenuContext := [("isOpen", VBool true); ("onTransitionEnd", VFun 1)];
     useMenuItem := fun p r => p ++ [("ref", r)];
     useMenuList := fun p r => p ++ [("ref", r); ("role", VStr "menu")];
     useMenuOption := fun p r => p ++ [("ref", r)];
     useMenuOptionGroup := fun p => p;
     useMenuPositioner := [] |}.

(** ** Facts about objects *)

Lemma get_app (k : string) (a b : obj) :
  get k (a ++ b) =
  match get k b with Some v => Some v | None => get k a end.
Proof.
  induction a as [|[k' v] a IH]; simpl.
  - destruct (get k b); reflexivity.
  - rewrite IH. destruct (get k b); reflexivity.
Qed.

Lemma has_key_eqb (k k' : string) (ks : list string) :
  (k =? k') = true -> has_key k' ks = has_key k ks.
Proof. intros H. apply String.eqb_eq in H. now subst. Qed.

Lemma get_omit (k : string) (ks : list string) (o : obj) :
  get k (omit ks o) = if has_key k ks then None else get k o.
Proof.
  induction o as [|[k' v] o IH]; simpl.
  - now destruct (has_key k ks).
  - destruct (has_key k' ks) eqn:Hk'; simpl; rewrite IH.
    + destruct (has_key k ks) eqn:Hk; [reflexivity|].
      destruct (get k o); [reflexivity|].
      destruct (k =? k') eqn:E; [|reflexivity].
      rewrite (@has_key_eqb k k' ks E) in Hk'. congruence.
    + destruct (has_key k ks) eqn:Hk; [|reflexivity].
      destruct (k =? k') eqn:E; [|reflexivity].
      rewrite (@has_key_eqb k k' ks E) in Hk'. congruence.
Qed.

Lemma prop_app (k : string) (a b : obj) :
  prop k (a ++ b) =
  match get k b with Some v => v | None => prop k a end.
Proof. unfold prop. rewrite get_app. now destruct (get k b). Qed.

Lemma prop_omit (k : string) (ks : list string) (o : obj) :
  prop k (omit ks o) = if has_key k ks then VUndef else prop k o.
Proof. unfold prop. rewrite get_omit. now destruct (has_key k ks). Qed.

Lemma prop_cons (k k' : string) (v : value) (o : obj) :
  prop k ((k', v) :: o) =
  match get k o with
  | Some w => w
  | None => if k =? k' then v else VUndef
  end.
Proof. unfold prop. simpl. destruct (get k o); [|destruct (k =? k')]; reflexivity. Qed.

(** A key outside a list of literal keys differs from each of them. *)
Ltac split_keys :=
  repeat match goal with
    | H : has_key _ (_ :: _) = false |- _ =>
        unfold has_key in H; simpl in H
    | H : (_ || _)%bool = false |- _ =>
        apply Bool.orb_false_iff in H; destruct H
    end.

(** Reading an attribute of an element written as a JSX expression. *)
Ltac use_keys :=
  repeat match goal with
    | H : (?a =? ?b) = _ |- context [?a =? ?b] => rewrite H
    end.

Ltac read_attrs :=
  split_keys;
  repeat (rewrite ?get_app, ?get_omit, ?prop_app, ?prop_omit, ?prop_cons;
          unfold has_key; simpl; use_keys; simpl);
  repeat match goal with
    | H : ?c = false |- context [if ?c then _ else _] => rewrite H
    | H : ?c = true |- context [if ?c then _ else _] => rewrite H
    end.

Lemma element_type_truthy (v : value) :
  is_element_type v = true -> truthy v = true.
Proof. destruct v; simpl; congruence. Qed.

(** ** Facts about role-free values *)

Lemma no_role_app (a b : obj) :
  no_role (a ++ b) = no_role a && no_role b.
Proof. unfold no_role. simpl. apply forallb_app. Qed.

Lemma no_role_cons (k : string) (v : value) (o : obj) :
  no_role ((k, v) :: o) = negb (k =? "role") && role_free v && no_role o.
Proof. reflexivity. Qed.

Lemma no_role_omit (ks : list string) (o : obj) :
  no_role o = true -> no_role (omit ks o) = true.
Proof.
  unfold no_role. simpl. induction o as [|[k v] o IH]; simpl; [easy|].
  intros H. apply andb_true_iff in H as [H1 H2].
  destruct (has_key k ks); simpl; [auto|]. rewrite H1. auto.
Qed.

Lemma role_free_get (k : string) (o : obj) (v : value) :
  no_role o = true -> get k o = Some v -> role_free v = true.
Proof.
  unfold no_role. simpl. induction o as [|[k' w] o IH]; simpl; [easy|].
  intros H. apply andb_true_iff in H as [H1 H2].
  apply andb_true_iff in H1 as [_ H1].
  destruct (get k o) eqn:E.
  - intros [= <-]. now apply IH.
  - destruct (k =? k'); [now intros [= <-]|easy].
Qed.

Lemma role_free_prop (k : string) (o : obj) :
  no_role o = true -> role_free (prop k o) = true.
Proof.
  intros H. unfold prop. destruct (get k o) eqn:E; [|reflexivity].
  eapply role_free_get; eauto.
Qed.

Lemma no_role_spread (v : value) :
  role_free v = true -> no_role (spread v) = true.
Proof. destruct v; simpl; auto. Qed.

Lemma role_free_opt_member (k : string) (v : value) :
  role_free v = true -> role_free (opt_member k v) = true.
Proof. destruct v; simpl; auto. intros H. now apply role_free_prop. Qed.

Lemma role_free_js_or (a b : value) :
  role_free a = true -> role_free b = true -> role_free (js_or a b) = true.
Proof. unfold js_or. now destruct (truthy a). Qed.

Lemma role_free_js_and (a b : value) :
  role_free a = true -> role_free b = true -> role_free (js_and a b) = true.
Proof. unfold js_and. now destruct (truthy a). Qed.

Lemma role_free_with_default (d v : value) :
  role_free d = true -> role_free v = true ->
  role_free (with_default d v) = true.
Proof. now destruct v. Qed.

Lemma role_free_nullish (a b : value) :
  role_free a = true -> role_free b = true ->
  role_free (nullish a b) = true.
Proof. now destruct a. Qed.

Lemma role_free_elem (t : value) (p : obj) :
  role_free t = true -> no_role p = true -> role_free (VElem t p) = true.
Proof. intros Ht Hp. simpl. rewrite Ht. exact Hp. Qed.

Lemma role_free_obj (o : obj) :
  no_role o = true -> role_free (VObj o) = true.
Proof. auto. Qed.

Lemma role_free_arr_cons (v : value) (l : list value) :
  role_free v = true -> role_free (VArr l) = true ->
  role_free (VArr (v :: l)) = true.
Proof. simpl. intros -> ->. reflexivity. Qed.

Lemma no_role_cons_intro (k : string) (v : value) (o : obj) :
  (k =? "role") = false -> role_free v = true -> no_role o = true ->
  no_role ((k, v) :: o) = true.
Proof. intros Hk Hv Ho. rewrite no_role_cons, Hk, Hv. exact Ho. Qed.

Lemma no_role_app_intro (a b : obj) :
  no_role a = true -> no_role b = true -> no_role (a ++ b) = true.
Proof. intros Ha Hb. rewrite no_role_app, Ha. exact Hb. Qed.

Lemma role_free_elem_props (e : value) :
  role_free e = true -> no_role (elem_props e) = true.
Proof.
  destruct e; simpl; auto. intros H. now apply andb_true_iff in H as [_ H].
Qed.

Lemma role_free_cloneElement (e : value) (config : obj) :
  role_free e = true -> no_role config = true ->
  role_free (cloneElement e config) = true.
Proof.
  destruct e; simpl; auto. intros H Hc.
  apply andb_true_iff in H as [Ht Hp]. rewrite Ht. simpl.
  now apply no_role_app_intro.
Qed.

Lemma role_free_if (c : bool) (a b : value) :
  role_free a = true -> role_free b = true ->
  role_free (if c then a else b) = true.
Proof. now destruct c. Qed.

Create HintDb rolefree.

#[local] Hint Resolve no_role_omit role_free_prop no_role_spread
  role_free_opt_member role_free_js_or role_free_js_and
  role_free_with_default role_free_nullish role_free_elem role_free_obj
  role_free_arr_cons no_role_cons_intro no_role_app_intro
  role_free_elem_props role_free_cloneElement role_free_if : rolefree.

#[local] Hint Extern 1 (role_free (attr _ _) = true) =>
  unfold attr : rolefree.

#[local] Hint Extern 0 (_ = _) => reflexivity : rolefree.

Section Properties.

Context {hooks : UseMenu} {sys : ChakraSystem} {js : Engine}.

(** *** Menu *)

(** C10: Menu renders no DOM element of its own.  Its output is the menu
    context provider, holding the context of [useMenu], around the styles
    provider around the children; function children are called with
    [{isOpen, onClose, forceUpdate}] read from that context, any other
    children are passed as given. *)
Theorem Menu_renders_only_providers (props : obj) :
  let context := useMenu (omitThemingProps props) in
  let children := prop "children" props in
  let arg := VObj [("isOpen", prop "isOpen" context);
                   ("onClose", prop "onClose" context);
                   ("forceUpdate", prop "forceUpdate" context)] in
  let inner := if isFunction children then call children [arg]
               else children in
  let styled := VElem (VComp StylesProvider)
                  [("value", VObj (useMultiStyleConfig "Menu" props));
                   ("children", inner)] in
  Menu props = VElem (VComp MenuProvider)
                 [("value", VObj context); ("children", styled)]
  /\ is_dom_type (elem_type (Menu props)) = false
  /\ is_dom_type (elem_type styled) = false.
Proof. repeat split. Qed.

(** *** MenuList *)

(** C5: the animated list's [animate] target is ["enter"] when the menu
    context's [isOpen] holds and ["exit"] when it does not, out of the
    two variants of [motionVariants], and [initial] is [false]. *)
Theorem MenuList_animate_follows_isOpen (props : obj) (ref : value) :
  exists attrs,
    attr "children" (MenuList props ref) = VElem (VComp Motion) attrs
    /\ prop "animate" attrs =
         VStr (if truthy (prop "isOpen" useMenuContext)
               then "enter" else "exit")
    /\ (forall b : bool,
          prop "isOpen" useMenuContext = VBool b ->
          (prop "animate" attrs = VStr "enter" <-> b = true)
          /\ (prop "animate" attrs = VStr "exit" <-> b = false))
    /\ prop "initial" attrs = VBool false
    /\ prop "variants" attrs = VObj motionVariants
    /\ (exists enter, get "enter" motionVariants = Some enter)
    /\ (exists exit, get "exit" motionVariants = Some exit).
Proof.
  eexists. split.
  - unfold attr, MenuList, jsx, elem_props. rewrite prop_app. simpl.
    reflexivity.
  - split; [|split; [|split; [|split; [|split]]]].
    + read_attrs. now destruct (truthy _).
    + intros b Hb. read_attrs. rewrite Hb. simpl.
      destruct b; split; split; congruence.
    + now read_attrs.
    + now read_attrs.
    + simpl. eauto.
    + simpl. eauto.
Qed.

(** *** StyledMenuItem *)

(** C8: the button's [type] is ["button"] when no [as] is given, whatever
    the [type] prop; with an [as] element type it is the [type] prop, and
    absent (undefined) when there is none. *)
Theorem StyledMenuItem_button_type (props : obj) (ref : value) :
  let out := StyledMenuItem props ref in
  elem_type out = VComp (Chakra "button")
  /\ attr "type" out =
       (if truthy (prop "as" props)
        then nullish (prop "type" props) VUndef
        else VStr "button")
  /\ (prop "as" props = VUndef -> attr "type" out = VStr "button")
  /\ (is_element_type (prop "as" props) = true ->
      (prop "type" props <> VNull -> attr "type" out = prop "type" props)
      /\ (get "type" props = None -> attr "type" out = VUndef)).
Proof.
  assert (E : attr "type" (StyledMenuItem props ref) =
              if truthy (prop "as" props)
              then nullish (prop "type" props) VUndef
              else VStr "button").
  { unfold attr, StyledMenuItem, jsx, elem_props. read_attrs. reflexivity. }
  simpl. repeat split.
  - exact E.
  - intros H. rewrite E, H. reflexivity.
  - intros Hn. rewrite E, (element_type_truthy _ H).
    destruct (prop "type" props); try reflexivity. congruence.
  - intros Hn. rewrite E, (element_type_truthy _ H).
    unfold prop. rewrite Hn. reflexivity.
Qed.

(** *** MenuItem *)

Lemma truthy_js_or (a b : value) :
  truthy (js_or a b) = truthy a || truthy b.
Proof. unfold js_or. destruct (truthy a) eqn:E; simpl; auto. Qed.

(** C4, amended: MenuItem puts its children into a pointer-events-none
    flex span exactly when the icon prop or the command prop is truthy,
    and hands them on unwrapped when both are falsy; the styled item
    passes these children to its button unchanged. *)
Theorem MenuItem_wraps_children_when_truthy (props : obj) (ref : value) :
  let icon := prop "icon" props in
  let command := prop "command" props in
  let children := prop "children" props in
  let out := MenuItem props ref in
  elem_type out = VComp (Own Comp.StyledMenuItem)
  /\ (exists first last,
        attr "children" out =
        VArr [first;
              if truthy icon || truthy command
              then wrapping_span children else children;
              last])
  /\ (forall r,
        attr "children" (StyledMenuItem (omit ["ref"; "key"] (elem_props out)) r)
        = attr "children" out).
Proof.
  simpl. split; [reflexivity|]. split.
  - do 2 eexists. unfold attr, MenuItem, jsx, elem_props.
    rewrite prop_app. simpl. rewrite truthy_js_or. reflexivity.
  - intros r. unfold attr, StyledMenuItem, jsx, elem_props.
    now read_attrs.
Qed.

(** *** MenuItemOption *)

(** C9: MenuItemOption's children are an icon wrapper and then the label.
    The wrapper's opacity is 1 when [isChecked] holds and 0 when it does
    not; its content is the [icon] prop when there is one and the
    built-in CheckIcon otherwise, so that without an [icon] the wrapper
    renders the check mark's [svg] whether the option is checked or not. *)
Theorem MenuItemOption_icon_wrapper (props : obj) (ref : value) :
  let optionProps := useMenuOption (omit ["icon"; "iconSpacing"] props) ref in
  let icon := prop "icon" props in
  let isChecked := prop "isChecked" props in
  let wrapper :=
    VElem (VComp (Own Comp.MenuIcon))
      [("fontSize", VStr "0.8em");
       ("marginEnd", with_default (VStr "0.75rem") (prop "iconSpacing" props));
       ("opacity", if truthy isChecked then VNum 1 else VNum 0);
       ("children",
        if truthy icon then icon else VElem (VComp (Own Comp.CheckIcon)) [])] in
  let label :=
    VElem (VComp (Chakra "span"))
      [("flex", VStr "1"); ("children", prop "children" optionProps)] in
  attr "children" (MenuItemOption props ref) = VArr [wrapper; label]
  /\ (forall b : bool,
        isChecked = VBool b ->
        attr "opacity" wrapper = if b then VNum 1 else VNum 0)
  /\ (isChecked = VUndef -> attr "opacity" wrapper = VNum 0)
  /\ (truthy icon = true -> attr "children" wrapper = icon)
  /\ (truthy icon = false ->
      exists span attrs,
        MenuIcon (elem_props wrapper) = inr span
        /\ attr "children" span = VElem (VComp (Own Comp.CheckIcon)) attrs
        /\ elem_type (CheckIcon attrs) = VStr "svg").
Proof.
  simpl. split; [|split; [|split; [|split]]].
  - unfold attr, MenuItemOption, jsx, elem_props. rewrite prop_app. simpl.
    unfold js_or. reflexivity.
  - intros b Hb. unfold attr. simpl. rewrite Hb. reflexivity.
  - intros Hu. unfold attr. simpl. rewrite Hu. reflexivity.
  - intros Hi. unfold attr. simpl. rewrite Hi. reflexivity.
  - intros Hi. rewrite Hi. do 2 eexists. split; [reflexivity|].
    split; reflexivity.
Qed.

(** *** Class names *)

Lemma cx_fixed_only (fixed : string) :
  fixed <> "" -> cx [VStr fixed; VUndef] = fixed.
Proof.
  intros H. unfold cx. simpl.
  destruct (fixed =? "") eqn:E; [apply String.eqb_eq in E; contradiction|].
  reflexivity.
Qed.

Lemma cx_fixed_and_given (fixed given : string) :
  fixed <> "" -> given <> "" ->
  cx [VStr fixed; VStr given] = (fixed ++ " " ++ given)%string.
Proof.
  intros Hf Hg. unfold cx. simpl.
  destruct (fixed =? "") eqn:E; [apply String.eqb_eq in E; contradiction|].
  destruct (given =? "") eqn:E'; [apply String.eqb_eq in E'; contradiction|].
  reflexivity.
Qed.

(** C6, amended: MenuButton, MenuItemOption, MenuDivider and MenuIcon
    give their element the fixed class joined with the caller's
    [className]; MenuItem and MenuList join the fixed class with the
    [className] of the props their hook returns (the caller's when the
    hook passes it on), and the styled button keeps that class;
    MenuOptionGroup hands its joined class to MenuGroup unless the hook's
    result has a [className]; MenuGroup's container always has the class
    ["chakra-menu__group"] and the caller's [className] goes, joined with
    ["chakra-menu__group__title"], to the title paragraph, which exists
    only for a truthy title.  Joining keeps the caller's classes: the
    fixed class alone when none are given, else the fixed class, a space
    and the caller's classes. *)
Theorem className_joins_fixed_class (props : obj) (ref : value) :
  let given := prop "className" props in
  let menuItemProps :=
    useMenuItem (omit ["icon"; "iconSpacing"; "command"; "children"] props)
      ref in
  let listProps := useMenuList props ref in
  let ownProps := useMenuOptionGroup (omit ["className"; "title"] props) in
  attr "className" (MenuButton props ref)
    = VStr (cx [VStr "chakra-menu__menu-button"; given])
  /\ attr "className" (MenuItemOption props ref)
    = VStr (cx [VStr "chakra-menu__menuitem-option"; given])
  /\ attr "className" (MenuDivider props)
    = VStr (cx [VStr "chakra-menu__divider"; given])
  /\ (forall out,
        MenuIcon props = inr out ->
        attr "className" out
        = VStr (cx [VStr "chakra-menu__icon-wrapper"; given]))
  /\ attr "className" (MenuItem props ref)
    = VStr (cx [VStr "chakra-menu__menuitem";
                prop "className" menuItemProps])
  /\ (prop "className" menuItemProps = given ->
      attr "className" (MenuItem props ref)
      = VStr (cx [VStr "chakra-menu__menuitem"; given]))
  /\ attr "className" (attr "children" (MenuList props ref))
    = VStr (cx [VStr "chakra-menu__menu-list"; prop "className" listProps])
  /\ (forall r,
        attr "className"
          (StyledMenuItem (omit ["ref"; "key"] (elem_props (MenuItem props ref))) r)
        = attr "className" (MenuItem props ref))
  /\ (get "className" ownProps = None ->
      attr "className" (MenuOptionGroup props)
      = VStr (cx [VStr "chakra-menu__option-group"; given]))
  /\ attr "className" (MenuGroup props ref) = VStr "chakra-menu__group"
  /\ (truthy (prop "title" props) = true ->
      exists title_p,
        attr "children" (MenuGroup props ref)
        = VArr [title_p; prop "children" props]
        /\ elem_type title_p = VComp (Chakra "p")
        /\ attr "className" title_p
           = VStr (cx [VStr "chakra-menu__group__title"; given]))
  /\ (forall fixed : string,
        fixed <> "" ->
        cx [VStr fixed; VUndef] = fixed
        /\ forall classes : string,
             classes <> "" ->
             cx [VStr fixed; VStr classes]
             = (fixed ++ " " ++ classes)%string)
  /\ elem_type (MenuOptionGroup props) = VComp (Own Comp.MenuGroup).
Proof.
  simpl.
  assert (HI : attr "className" (MenuItem props ref)
    = VStr (cx [VStr "chakra-menu__menuitem";
                prop "className"
                  (useMenuItem
                     (omit ["icon"; "iconSpacing"; "command"; "children"] props)
                     ref)])).
  { unfold attr, MenuItem, jsx, elem_props. now read_attrs. }
  repeat match goal with |- _ /\ _ => split end.
  - unfold attr, MenuButton, jsx, elem_props. now read_attrs.
  - unfold attr, MenuItemOption, jsx, elem_props. now read_attrs.
  - unfold attr, MenuDivider, jsx, elem_props. now read_attrs.
  - intros out. unfold MenuIcon.
    destruct (Children_only (prop "children" props)); [discriminate|].
    intros [= <-]. unfold attr, jsx, elem_props. now read_attrs.
  - exact HI.
  - intros E. rewrite HI, E. reflexivity.
  - unfold attr at 2. unfold MenuList, jsx, elem_props. rewrite prop_app.
    simpl. unfold attr, elem_props. now read_attrs.
  - intros r. rewrite HI.
    unfold attr, StyledMenuItem, MenuItem, jsx, elem_props. now read_attrs.
  - intros E. unfold attr, MenuOptionGroup, jsx, elem_props.
    rewrite prop_app, E. reflexivity.
  - reflexivity.
  - intros Ht. eexists. unfold attr at 1. unfold MenuGroup, jsx, elem_props.
    simpl. unfold js_and. rewrite Ht. split; [reflexivity|].
    split; [reflexivity|]. unfold attr, elem_props. now read_attrs.
  - intros fixed Hf. split; [now apply cx_fixed_only|].
    intros classes Hc. now apply cx_fixed_and_given.
  - reflexivity.
Qed.

(** *** Errors *)

(** C3, amended: MenuIcon renders exactly when its [children] is one
    React element and throws the error of [React.Children.only] for any
    other value; no other component of the file raises an error of its
    own.  The icon wrapper MenuItem creates therefore renders when the
    [icon] prop is a React element, as its type declares. *)
Theorem only_MenuIcon_throws (c : Comp.t) (attrs : obj) (ref : value) :
  (c <> Comp.MenuIcon -> exists out, render_own c attrs = inr out)
  /\ (isValidElement (prop "children" attrs) = true ->
      exists out, render_own Comp.MenuIcon attrs = inr out)
  /\ (isValidElement (prop "children" attrs) = false ->
      render_own Comp.MenuIcon attrs = inl ChildrenOnly)
  /\ (isValidElement (prop "icon" attrs) = true ->
      (exists last,
         attr "children" (MenuItem attrs ref)
         = VArr [item_icon_wrapper attrs;
                 wrapping_span (prop "children" attrs); last])
      /\ exists out,
           render_own Comp.MenuIcon (elem_props (item_icon_wrapper attrs))
           = inr out).
Proof.
  assert (E : prop "children" (omit ["ref"; "key"] attrs)
              = prop "children" attrs) by now read_attrs.
  repeat match goal with |- _ /\ _ => split end.
  - intros Hc. destruct c; simpl; eauto. contradiction.
  - intros Hv. unfold render_own, MenuIcon, Children_only.
    rewrite E, Hv. eauto.
  - intros Hv. unfold render_own, MenuIcon, Children_only.
    rewrite E, Hv. reflexivity.
  - intros Hv. split.
    + destruct (prop "icon" attrs) eqn:Hi; try discriminate.
      eexists. unfold attr, MenuItem, jsx, elem_props. rewrite prop_app.
      simpl. unfold item_icon_wrapper, js_and, js_or. rewrite Hi. simpl.
      reflexivity.
    + unfold render_own, MenuIcon, Children_only, item_icon_wrapper,
        elem_props.
      read_attrs. eauto.
Qed.

(** *** Exports *)

(** C7: for each listed element kind the file exports a component of the
    listed name, a different one for each kind.  In a development build
    the component carries that name as its display name; in a production
    build it has none. *)
Theorem every_element_kind_is_exported :
  Forall (fun kind =>
            exists c, exported (snd kind) exports = Some c
                      /\ displayName true c = Some (snd kind)
                      /\ displayName false c = None)
         element_kinds
  /\ NoDup (map (fun kind => exported (snd kind) exports) element_kinds).
Proof.
  split.
  - repeat constructor; simpl; eauto.
  - repeat constructor; simpl; intuition discriminate.
Qed.

(** *** Roles *)

Lemma role_free_runIfFn (v : value) (args : list value) :
  role_free_env -> role_free v = true -> role_free (VArr args) = true ->
  role_free (runIfFn v args) = true.
Proof.
  intros [] Hv Ha. unfold runIfFn. destruct (isFunction v); auto.
Qed.

Lemma role_free_jsx (t : value) (config : obj) (children : list value) :
  role_free t = true -> no_role config = true ->
  role_free (VArr children) = true ->
  role_free (jsx t config children) = true.
Proof.
  intros Ht Hc Hl. unfold jsx. apply role_free_elem; [exact Ht|].
  destruct children as [|c [|c' l]]; [exact Hc| |].
  - apply no_role_app_intro; [exact Hc|]. simpl in Hl.
    apply andb_true_iff in Hl as [Hl _].
    apply no_role_cons_intro; auto.
  - apply no_role_app_intro; [exact Hc|].
    apply no_role_cons_intro; auto.
Qed.

#[local] Hint Resolve role_free_jsx : rolefree.

(** C2, amended: the file writes two literal roles, ["group"] on
    MenuGroup's container and ["separator"] on MenuDivider's rule (where a
    [role] among the caller's props replaces it).  No other component
    writes one: when the props and what the consumed modules return carry
    no role, nothing in the component's output carries one. *)
Theorem roles_written_by_the_file (c : Comp.t) (attrs : obj) :
  (role_free_env -> no_role attrs = true -> writes_role c = false ->
   forall out, render_own c attrs = inr out -> role_free out = true)
  /\ (forall props ref, attr "role" (MenuGroup props ref) = VStr "group")
  /\ (forall props,
        attr "role" (MenuDivider props) =
        match get "role" props with
        | Some r => r
        | None => VStr "separator"
        end).
Proof.
  split; [|split].
  - intros E Ha Hw out. pose proof (fun v args => @role_free_runIfFn v args E) as Hrun.
    destruct E.
    assert (Hp : no_role (omit ["ref"; "key"] attrs) = true)
      by auto with rolefree.
    assert (Hr : role_free (with_default VNull (prop "ref" attrs)) = true)
      by auto with rolefree.
    destruct c; try discriminate Hw; unfold render_own;
      try (intros [= <-]).
    + unfold Menu. auto 40 with rolefree.
    + unfold StyledMenuButton. auto 40 with rolefree.
    + unfold MenuButton. auto 40 with rolefree.
    + unfold MenuList. auto 40 with rolefree.
    + unfold StyledMenuItem. auto 40 with rolefree.
    + unfold MenuItem. auto 40 with rolefree.
    + unfold CheckIcon. auto 40 with rolefree.
    + unfold MenuItemOption. auto 40 with rolefree.
    + unfold MenuOptionGroup. auto 40 with rolefree.
    + unfold MenuCommand. auto 40 with rolefree.
    + unfold MenuIcon, Children_only.
      destruct (isValidElement _); [|discriminate].
      intros [= <-]. auto 40 with rolefree.
  - intros props ref. reflexivity.
  - intros props. unfold attr, MenuDivider, jsx, elem_props. read_attrs.
    now destruct (get "role" props).
Qed.

(** *** Forwarding *)

(** C1, amended: StyledMenuButton, StyledMenuItem, MenuCommand and
    MenuIcon put every prop they do not take out or set themselves onto
    their element, and MenuDivider every such prop the caller gives;
    MenuButton, MenuItem, MenuItemOption, MenuList and MenuOptionGroup put
    the props their use-menu hook returns onto theirs; MenuGroup puts the
    remaining props onto the title paragraph when the title is truthy and
    onto no element when it is not: its container has only the ref, the
    class, the role and the children. *)
Theorem props_are_forwarded (props : obj) (ref : value) (k : string) :
  (has_key k ["ref"; "__css"] = false ->
   get k (elem_props (StyledMenuButton props ref)) = get k props)
  /\ (has_key k ["ref"; "type"; "__css"] = false ->
      get k (elem_props (StyledMenuItem props ref)) = get k props)
  /\ (has_key k ["ref"; "__css"; "className"] = false ->
      get k (elem_props (MenuCommand props ref)) = get k props)
  /\ (has_key k ["className"; "children"; "__css"] = false ->
      forall out,
        MenuIcon props = inr out -> get k (elem_props out) = get k props)
  /\ (has_key k ["className"; "__css"] = false ->
      forall v,
        get k props = Some v ->
        get k (elem_props (MenuDivider props)) = Some v)
  /\ (has_key k ["className"; "children"] = false ->
      get k (elem_props (MenuButton props ref))
      = get k (useMenuButton (omit ["children"; "as"] props) ref)
      /\ get k (elem_props (MenuItem props ref))
        = get k (useMenuItem
                   (omit ["icon"; "iconSpacing"; "command"; "children"] props)
                   ref)
      /\ get k (elem_props (MenuItemOption props ref))
        = get k (useMenuOption (omit ["icon"; "iconSpacing"] props) ref))
  /\ (has_key k ["onUpdate"; "className"; "variants"; "initial"; "animate";
                 "__css"] = false ->
      get k (elem_props (attr "children" (MenuList props ref)))
      = get k (useMenuList props ref))
  /\ (forall v,
        get k (useMenuOptionGroup (omit ["className"; "title"] props))
        = Some v ->
        get k (elem_props (MenuOptionGroup props)) = Some v)
  /\ (truthy (prop "title" props) = true ->
      has_key k ["title"; "children"; "className"; "__css"] = false ->
      exists title_p,
        attr "children" (MenuGroup props ref)
        = VArr [title_p; prop "children" props]
        /\ get k (elem_props title_p) = get k props)
  /\ (truthy (prop "title" props) = false ->
      MenuGroup props ref
      = VElem (VComp (Chakra "div"))
          [("ref", ref); ("className", VStr "chakra-menu__group");
           ("role", VStr "group");
           ("children", VArr [prop "title" props; prop "children" props])]).
Proof.
  repeat match goal with |- _ /\ _ => split end.
  - intros H. unfold StyledMenuButton, jsx, elem_props. read_attrs.
    now destruct (get k props).
  - intros H. unfold StyledMenuItem, jsx, elem_props. read_attrs.
    now destruct (get k props).
  - intros H. unfold MenuCommand, jsx, elem_props. read_attrs.
    now destruct (get k props).
  - intros H out. unfold MenuIcon.
    destruct (Children_only (prop "children" props)); [discriminate|].
    intros [= <-]. unfold jsx, elem_props. read_attrs.
    now destruct (get k props).
  - intros H v Hv. unfold MenuDivider, jsx, elem_props. read_attrs.
    rewrite Hv. reflexivity.
  - intros H. repeat split.
    + unfold MenuButton, jsx, elem_props. read_attrs.
      now destruct (get k _).
    + unfold MenuItem, jsx, elem_props. read_attrs.
      now destruct (get k _).
    + unfold MenuItemOption, jsx, elem_props. read_attrs.
      now destruct (get k _).
  - intros H. unfold attr at 1. unfold MenuList, jsx, elem_props.
    rewrite prop_app. simpl. read_attrs. now destruct (get k _).
  - intros v Hv. unfold MenuOptionGroup, jsx, elem_props.
    rewrite get_app, Hv. reflexivity.
  - intros Ht H. eexists. unfold attr. unfold MenuGroup, jsx, elem_props.
    simpl. unfold js_and. rewrite Ht. split; [reflexivity|].
    read_attrs. now destruct (get k props).
  - intros Ht. unfold MenuGroup, jsx, js_and. rewrite Ht. reflexivity.
Qed.

End Properties.

(** ** The sample environment at work *)

#[local] Existing Instance sample_hooks.
#[local] Existing Instance sample_system.
#[local] Existing Instance sample_engine.

Lemma sample_env_role_free : role_free_env.
Proof.
  constructor; simpl; intros; auto with rolefree.
Qed.

(** An open menu's list animates to ["enter"]. *)
Lemma MenuList_animate_open_menu :
  attr "animate" (attr "children" (MenuList (hooks := open_hooks) [] VNull))
  = VStr "enter".
Proof.
  destruct (MenuList_animate_follows_isOpen (hooks := open_hooks) [] VNull)
    as (attrs & Hc & _ & Hb & _).
  rewrite Hc. apply (Hb true); reflexivity.
Defined.

(** A plain item is a button of type ["button"]; an item rendered as a
    link takes the caller's type, or none. *)
Lemma StyledMenuItem_types_of_button_and_link :
  attr "type" (StyledMenuItem [("type", VStr "submit")] VNull) = VStr "button"
  /\ attr "type"
       (StyledMenuItem [("type", VStr "submit"); ("as", VStr "a")] VNull)
     = VStr "submit"
  /\ attr "type" (StyledMenuItem [("as", VStr "a")] VNull) = VUndef.
Proof.
  split; [|split].
  - pose proof (StyledMenuItem_button_type [("type", VStr "submit")] VNull)
      as H.
    cbv zeta in H. destruct H as (_ & _ & H & _). apply H. reflexivity.
  - pose proof (StyledMenuItem_button_type
                  [("type", VStr "submit"); ("as", VStr "a")] VNull) as H.
    cbv zeta in H. destruct H as (_ & _ & _ & H).
    destruct (H eq_refl) as [H1 _]. apply H1. discriminate.
  - pose proof (StyledMenuItem_button_type [("as", VStr "a")] VNull) as H.
    cbv zeta in H. destruct H as (_ & _ & _ & H).
    destruct (H eq_refl) as [_ H2]. apply H2. reflexivity.
Defined.

(** A checked option without an icon shows the built-in check mark. *)
Lemma MenuItemOption_checked_without_icon :
  exists wrapper label span attrs,
    attr "children" (MenuItemOption [("isChecked", VBool true)] VNull)
    = VArr [wrapper; label]
    /\ attr "opacity" wrapper = VNum 1
    /\ MenuIcon (elem_props wrapper) = inr span
    /\ attr "children" span = VElem (VComp (Own Comp.CheckIcon)) attrs.
Proof.
  pose proof (MenuItemOption_icon_wrapper [("isChecked", VBool true)] VNull)
    as H.
  cbv zeta in H. destruct H as (Hc & Ho & _ & _ & Hi).
  destruct (Hi eq_refl) as (span & attrs & Hs & Ha & _).
  do 4 eexists. split; [exact Hc|]. split; [exact (Ho true eq_refl)|].
  split; [exact Hs|exact Ha].
Defined.

(** A titled option group keeps the caller's classes on its title. *)
Lemma MenuGroup_title_keeps_classes :
  attr "className"
    (MenuOptionGroup [("className", VStr "mine"); ("title", VStr "Fruits")])
  = VStr "chakra-menu__option-group mine"
  /\ exists title_p,
       attr "children"
         (MenuGroup [("className", VStr "mine"); ("title", VStr "Fruits")]
            VNull)
       = VArr [title_p; VUndef]
       /\ attr "className" title_p = VStr "chakra-menu__group__title mine".
Proof.
  pose proof (className_joins_fixed_class
                [("className", VStr "mine"); ("title", VStr "Fruits")] VNull)
    as H.
  cbv zeta in H.
  destruct H as (_ & _ & _ & _ & _ & _ & _ & _ & Hg & _ & Ht & _).
  split.
  - exact (Hg eq_refl).
  - destruct (Ht eq_refl) as (title_p & Hc & _ & Hn).
    exists title_p. split; [exact Hc|exact Hn].
Defined.

(** A divider renders, and so does an icon around an element. *)
Lemma MenuDivider_and_MenuIcon_render :
  (exists out, render_own Comp.MenuDivider [] = inr out)
  /\ exists out,
       render_own Comp.MenuIcon
         [("children", VElem (VComp (Own Comp.CheckIcon)) [])]
       = inr out.
Proof.
  split.
  - pose proof (only_MenuIcon_throws Comp.MenuDivider [] VNull) as H.
    destruct H as (H & _). apply H. discriminate.
  - pose proof (only_MenuIcon_throws Comp.MenuIcon
                  [("children", VElem (VComp (Own Comp.CheckIcon)) [])] VNull)
      as H.
    destruct H as (_ & H & _). apply H. reflexivity.
Defined.

(** An [id] reaches the command's span and a titled group's title. *)
Lemma id_reaches_command_and_title :
  get "id" (elem_props (MenuCommand [("id", VStr "hint")] VNull))
  = Some (VStr "hint")
  /\ exists title_p,
       attr "children"
         (MenuGroup [("id", VStr "fruits"); ("title", VStr "Fruits")] VNull)
       = VArr [title_p; VUndef]
       /\ get "id" (elem_props title_p) = Some (VStr "fruits").
Proof.
  split.
  - pose proof (props_are_forwarded [("id", VStr "hint")] VNull "id") as H.
    destruct H as (_ & _ & Hc & _). rewrite (Hc eq_refl). reflexivity.
  - pose proof (props_are_forwarded
                  [("id", VStr "fruits"); ("title", VStr "Fruits")] VNull "id")
      as H.
    destruct H as (_ & _ & _ & _ & _ & _ & _ & _ & Ht & _).
    exact (Ht eq_refl eq_refl).
Defined.

(** With role-free hooks a menu item's output carries no role. *)
Lemma MenuItem_writes_no_role :
  exists out,
    render_own Comp.MenuItem [("children", VStr "Copy")] = inr out
    /\ role_free out = true.
Proof.
  eexists. split; [reflexivity|].
  pose proof (roles_written_by_the_file Comp.MenuItem
                [("children", VStr "Copy")]) as H.
  destruct H as (H & _).
  apply H; [exact sample_env_role_free|reflexivity|reflexivity|reflexivity].
Defined.

(** ** Where the stated interface and the code part *)

(** C1: a group without a title puts the caller's [id] on no element. *)
Lemma MenuGroup_without_title_drops_id :
  let props := [("id", VStr "fruits"); ("children", VStr "Apple")] in
  get "id" props = Some (VStr "fruits")
  /\ has_key "id" semantic_options = false
  /\ exists out,
       render_own Comp.MenuGroup props = inr out
       /\ has_attr "id" out = false.
Proof.
  simpl. split; [reflexivity|]. split; [reflexivity|].
  eexists. split; reflexivity.
Qed.

(** C2: with no role among its props and role-free hooks, the divider
    still has the role ["separator"], written in the file. *)
Lemma MenuDivider_writes_separator_role :
  role_free_env
  /\ no_role [] = true
  /\ exists out,
       render_own Comp.MenuDivider [] = inr out
       /\ attr "role" out = VStr "separator"
       /\ role_free out = false.
Proof.
  split; [exact sample_env_role_free|]. split; [reflexivity|].
  eexists. split; [reflexivity|]. split; reflexivity.
Qed.

(** C3: MenuIcon throws for text children, for no children and for two
    elements. *)
Lemma MenuIcon_throws_without_single_element :
  render_own Comp.MenuIcon [("children", VStr "x")] = inl ChildrenOnly
  /\ render_own Comp.MenuIcon [] = inl ChildrenOnly
  /\ render_own Comp.MenuIcon
       [("children", VArr [VElem (VStr "i") []; VElem (VStr "b") []])]
     = inl ChildrenOnly.
Proof. repeat split. Qed.

(** C4: with an empty command string the command prop is provided, yet
    the children are not wrapped. *)
Lemma MenuItem_empty_command_is_not_wrapped :
  let props := [("command", VStr ""); ("children", VStr "Copy")] in
  get "command" props = Some (VStr "")
  /\ attr "children" (MenuItem props VNull)
     = VArr [VUndef; VStr "Copy"; VStr ""].
Proof. split; reflexivity. Qed.

(** C6: a group without a title has the class ["chakra-menu__group"]
    alone; the caller's class is on no element. *)
Lemma MenuGroup_without_title_drops_className :
  let props := [("className", VStr "mine")] in
  exists out,
    render_own Comp.MenuGroup props = inr out
    /\ attr "className" out = VStr "chakra-menu__group"
    /\ cx [VStr "chakra-menu__group"; prop "className" props]
       = "chakra-menu__group mine"
    /\ map (attr "className") (elements out) = [VStr "chakra-menu__group"].
Proof.
  eexists. split; [reflexivity|]. repeat split.
Qed.

(** ** Further properties of the components *)

(** The base styles of the two styled buttons, as their [__css] lists
    them before the theme's part. *)
Definition button_base_styles : obj :=
  [("display", VStr "inline-flex");
   ("appearance", VStr "none");
   ("alignItems", VStr "center");
   ("outline", VNum 0);
   ("transition", VStr "all 250ms")].

Definition item_base_styles : obj :=
  [("textDecoration", VStr "none");
   ("color", VStr "inherit");
   ("userSelect", VStr "none");
   ("display", VStr "flex");
   ("width", VStr "100%");
   ("alignItems", VStr "center");
   ("textAlign", VStr "left");
   ("flex", VStr "0 0 auto");
   ("outline", VNum 0)].

Section MoreProperties.

Context {hooks : UseMenu} {sys : ChakraSystem} {js : Engine}.

(** *** MenuButton *)

(** X1: the trigger is the [as] prop when that is truthy and the styled
    button otherwise; its only child is the pointer-events-none span
    around the caller's children, whatever children the hook returns. *)
Theorem MenuButton_root_and_label (props : obj) (ref : value) :
  let As := prop "as" props in
  let out := MenuButton props ref in
  elem_type out
  = (if truthy As then As else VComp (Own Comp.StyledMenuButton))
  /\ attr "children" out
     = VElem (VComp (Chakra "span"))
         [("__css", VObj [("pointerEvents", VStr "none");
                          ("flex", VStr "1 1 auto")]);
          ("children", prop "children" props)].
Proof.
  simpl. split.
  - reflexivity.
  - unfold attr, MenuButton, jsx, elem_props. now read_attrs.
Qed.

(** X2: without an [as] prop, rendering the trigger's styled button gives
    a [chakra.button] that has the joined class and the label span of
    the trigger, the ref the hook returns ([null] when it returns none)
    and every other prop of the hook's result. *)
Theorem MenuButton_renders_chakra_button
  (props : obj) (ref : value) (k : string) :
  truthy (prop "as" props) = false ->
  let buttonProps := useMenuButton (omit ["children"; "as"] props) ref in
  let trigger := MenuButton props ref in
  elem_type trigger = VComp (Own Comp.StyledMenuButton)
  /\ exists button,
       render_own Comp.StyledMenuButton (elem_props trigger) = inr button
       /\ elem_type button = VComp (Chakra "button")
       /\ attr "className" button = attr "className" trigger
       /\ attr "children" button = attr "children" trigger
       /\ attr "ref" button = with_default VNull (prop "ref" buttonProps)
       /\ (has_key k ["ref"; "key"; "className"; "children"; "__css"] = false ->
           get k (elem_props button) = get k buttonProps).
Proof.
  intros Has. cbv zeta. split.
  - unfold MenuButton, jsx, js_or. rewrite Has. reflexivity.
  - eexists. split; [reflexivity|]. split; [reflexivity|].
    unfold attr, StyledMenuButton, MenuButton, jsx, elem_props.
    repeat split.
    + now read_attrs.
    + now read_attrs.
    + now read_attrs.
    + intros Hk. read_attrs. now destruct (get k _).
Qed.

(** *** The styled buttons *)

(** X3: in the [__css] of the styled trigger and of the styled item an
    entry of the theme's part ([styles.button], [styles.item]) comes
    before the base style of the same name, the base styles fill in the
    rest, and a [__css] among the props is replaced. *)
Theorem styled_css_theme_over_base (props : obj) (ref : value) (k : string) :
  (exists css,
     attr "__css" (StyledMenuButton props ref) = VObj css
     /\ get k css
        = match get k (spread (prop "button" useStyles)) with
          | Some v => Some v
          | None => get k button_base_styles
          end)
  /\ (exists css,
        attr "__css" (StyledMenuItem props ref) = VObj css
        /\ get k css
           = match get k (spread (prop "item" useStyles)) with
             | Some v => Some v
             | None => get k item_base_styles
             end).
Proof.
  split.
  - exists (button_base_styles ++ spread (prop "button" useStyles)). split.
    + unfold attr, StyledMenuButton, jsx, elem_props. now read_attrs.
    + apply get_app.
  - exists (item_base_styles ++ spread (prop "item" useStyles)). split.
    + unfold attr, StyledMenuItem, jsx, elem_props. now read_attrs.
    + apply get_app.
Qed.

(** *** MenuCommand *)

(** X4: the command label is a [chakra.span] whose class is
    ["chakra-menu__command"] and whose [__css] is the theme's command
    part whatever [className] and [__css] the props have; its children
    are the props' children. *)
Theorem MenuCommand_class_is_fixed (props : obj) (ref : value) :
  let out := MenuCommand props ref in
  elem_type out = VComp (Chakra "span")
  /\ attr "className" out = VStr "chakra-menu__command"
  /\ attr "__css" out = prop "command" useStyles
  /\ get "children" (elem_props out) = get "children" props.
Proof.
  simpl. unfold attr, MenuCommand, jsx, elem_props.
  repeat split; read_attrs; try reflexivity.
  now destruct (get "children" props).
Qed.

(** *** MenuItem *)

Lemma falsy_not_element (v : value) :
  truthy v = false -> isValidElement v = false.
Proof. destruct v; simpl; congruence. Qed.

(** X5: of the three children of a menu item the first is an element
    exactly when the icon prop is truthy and the last exactly when the
    command prop is; a falsy icon or command is handed on as it is, and a
    truthy command renders as the command label holding the command. *)
Theorem MenuItem_icon_and_command_when_truthy (props : obj) (ref : value) :
  let icon := prop "icon" props in
  let command := prop "command" props in
  exists first middle last,
    attr "children" (MenuItem props ref) = VArr [first; middle; last]
    /\ isValidElement first = truthy icon
    /\ isValidElement last = truthy command
    /\ (truthy icon = true -> first = item_icon_wrapper props)
    /\ (truthy icon = false -> first = icon)
    /\ (truthy command = false -> last = command)
    /\ (truthy command = true ->
        exists label,
          render_own Comp.MenuCommand (elem_props last) = inr label
          /\ attr "children" label = command
          /\ attr "className" label = VStr "chakra-menu__command"
          /\ attr "ref" label = VNull)
    /\ (truthy icon = true -> elem_type first = VComp (Own Comp.MenuIcon))
    /\ (truthy command = true ->
        elem_type last = VComp (Own Comp.MenuCommand)).
Proof.
  cbv zeta. do 3 eexists. split.
  - unfold attr, MenuItem, jsx, elem_props. rewrite prop_app. simpl.
    reflexivity.
  - unfold js_and, item_icon_wrapper.
    destruct (truthy (prop "icon" props)) eqn:Hi;
      destruct (truthy (prop "command" props)) eqn:Hc;
      repeat split; try discriminate; try reflexivity;
      try (now apply falsy_not_element).
    all: try (intros _; eexists; split; [reflexivity|];
              unfold attr, MenuCommand, jsx, elem_props; repeat split).
Qed.

(** *** MenuIcon *)

(** X6: around a single element the icon wrapper holds a clone of it, of
    the same type and with the same props, except that [focusable] is
    ["false"], [aria-hidden] is [true] and the class is
    ["chakra-menu__icon"] joined with the element's own; the wrapper's
    [__css] is [{flexShrink: 0}] whatever the props say.  Its child is
    never [null]. *)
Theorem MenuIcon_clones_its_child
  (props : obj) (type : value) (child_props : obj) (k : string) :
  prop "children" props = VElem type child_props ->
  exists span clone_props,
    MenuIcon props = inr span
    /\ elem_type span = VComp (Chakra "span")
    /\ attr "__css" span = VObj [("flexShrink", VNum 0)]
    /\ attr "children" span = VElem type clone_props
    /\ prop "focusable" clone_props = VStr "false"
    /\ prop "aria-hidden" clone_props = VBool true
    /\ prop "className" clone_props
       = VStr (cx [VStr "chakra-menu__icon"; prop "className" child_props])
    /\ (has_key k ["focusable"; "aria-hidden"; "className"] = false ->
        get k clone_props = get k child_props).
Proof.
  intros Hc. unfold MenuIcon, Children_only. rewrite Hc. simpl.
  do 2 eexists. split; [reflexivity|]. split; [reflexivity|].
  unfold attr, jsx, elem_props. split; [now read_attrs|].
  split; [now read_attrs|]. split; [now read_attrs|].
  split; [now read_attrs|]. split; [now read_attrs|].
  intros Hk. read_attrs. now destruct (get k child_props).
Qed.

(** X7: whenever the icon wrapper renders, its child is an element. *)
Theorem MenuIcon_child_is_never_null (props : obj) (span : value) :
  MenuIcon props = inr span ->
  isValidElement (attr "children" span) = true
  /\ isValidElement (prop "children" props) = true.
Proof.
  unfold MenuIcon, Children_only.
  destruct (prop "children" props) eqn:Hc; simpl; try discriminate.
  intros [= <-]. unfold attr, jsx, elem_props. read_attrs. split; reflexivity.
Qed.

(** *** MenuDivider *)

(** X8: the divider is a [chakra.hr] whose orientation is
    ["horizontal"] unless the caller's props have an [aria-orientation]
    of their own, and whose [__css] is the theme's divider part whatever
    the props say. *)
Theorem MenuDivider_defaults (props : obj) :
  let out := MenuDivider props in
  elem_type out = VComp (Chakra "hr")
  /\ attr "aria-orientation" out
     = match get "aria-orientation" props with
       | Some v => v
       | None => VStr "horizontal"
       end
  /\ attr "__css" out = prop "divider" useStyles.
Proof.
  simpl. unfold attr, MenuDivider, jsx, elem_props. repeat split.
  - read_attrs. now destruct (get "aria-orientation" props).
  - now read_attrs.
Qed.

(** *** From an item to its button *)

(** X9: rendering the styled item of a menu item or of an option gives a
    [chakra.button]; its [type] is ["button"] unless the hook's props have
    a truthy [as], in which case it is their [type]; its ref is the one
    the hook returns, [null] when there is none; and every other prop of
    the hook's result is on the button. *)
Theorem items_render_chakra_button (props : obj) (ref : value) (k : string) :
  let itemProps :=
    useMenuItem (omit ["icon"; "iconSpacing"; "command"; "children"] props)
      ref in
  let optionProps := useMenuOption (omit ["icon"; "iconSpacing"] props) ref in
  (exists button,
     render_own Comp.StyledMenuItem (elem_props (MenuItem props ref))
     = inr button
     /\ elem_type button = VComp (Chakra "button")
     /\ attr "type" button
        = (if truthy (prop "as" itemProps)
           then nullish (prop "type" itemProps) VUndef
           else VStr "button")
     /\ attr "ref" button = with_default VNull (prop "ref" itemProps)
     /\ (has_key k ["ref"; "key"; "type"; "className"; "children"; "__css"]
         = false ->
         get k (elem_props button) = get k itemProps))
  /\ (exists button,
        render_own Comp.StyledMenuItem (elem_props (MenuItemOption props ref))
        = inr button
        /\ elem_type button = VComp (Chakra "button")
        /\ attr "type" button
           = (if truthy (prop "as" optionProps)
              then nullish (prop "type" optionProps) VUndef
              else VStr "button")
        /\ attr "ref" button = with_default VNull (prop "ref" optionProps)
        /\ attr "className" button
           = attr "className" (MenuItemOption props ref)
        /\ attr "children" button
           = attr "children" (MenuItemOption props ref)
        /\ (has_key k ["ref"; "key"; "type"; "className"; "children"; "__css"]
            = false ->
            get k (elem_props button) = get k optionProps))
  /\ elem_type (MenuItem props ref) = VComp (Own Comp.StyledMenuItem)
  /\ elem_type (MenuItemOption props ref) = VComp (Own Comp.StyledMenuItem).
Proof.
  cbv zeta. split; [|split; [|split; reflexivity]].
  - eexists. split; [reflexivity|]. split; [reflexivity|].
    unfold attr, StyledMenuItem, MenuItem, jsx, elem_props.
    split; [now read_attrs|]. split; [now read_attrs|].
    intros Hk. read_attrs. now destruct (get k _).
  - eexists. split; [reflexivity|]. split; [reflexivity|].
    unfold attr, StyledMenuItem, MenuItemOption, jsx, elem_props.
    split; [now read_attrs|]. split; [now read_attrs|].
    split; [now read_attrs|]. split; [now read_attrs|].
    intros Hk. read_attrs. now destruct (get k _).
Qed.

(** *** MenuItemOption *)

(** X10: the icon wrapper of an option renders exactly when the icon prop
    is falsy or a React element; a truthy icon that is no element makes
    it throw.  When it renders, the wrapping span has the wrapper's
    opacity, font size and margin (["0.75rem"] for an undefined
    [iconSpacing], the given spacing otherwise) and the class
    ["chakra-menu__icon-wrapper"]. *)
Theorem MenuItemOption_icon_must_be_element (props : obj) (ref : value) :
  let icon := prop "icon" props in
  exists wrapper label,
    attr "children" (MenuItemOption props ref) = VArr [wrapper; label]
    /\ ((exists span, render_own Comp.MenuIcon (elem_props wrapper) = inr span)
        <-> truthy icon = false \/ isValidElement icon = true)
    /\ (truthy icon = true -> isValidElement icon = false ->
        render_own Comp.MenuIcon (elem_props wrapper) = inl ChildrenOnly)
    /\ (forall span,
          render_own Comp.MenuIcon (elem_props wrapper) = inr span ->
          attr "opacity" span
          = (if truthy (prop "isChecked" props) then VNum 1 else VNum 0)
          /\ attr "fontSize" span = VStr "0.8em"
          /\ attr "marginEnd" span
             = with_default (VStr "0.75rem") (prop "iconSpacing" props)
          /\ attr "className" span = VStr "chakra-menu__icon-wrapper").
Proof.
  cbv zeta. do 2 eexists. split.
  - unfold attr, MenuItemOption, jsx, elem_props. rewrite prop_app. simpl.
    reflexivity.
  - unfold render_own, MenuIcon, Children_only, jsx, js_or, elem_props.
    read_attrs.
    destruct (truthy (prop "icon" props)) eqn:Ht.
    + destruct (isValidElement (prop "icon" props)) eqn:Hv.
      * split; [split; eauto|]. split; [discriminate|].
        intros span [= <-]. unfold attr, elem_props.
        repeat split; now read_attrs.
      * split; [split; [intros [span Hs]; discriminate|
                        intros [H|H]; discriminate]|].
        split; [reflexivity|]. intros span Hs. discriminate.
    + simpl. split; [split; eauto|]. split; [discriminate|].
      intros span [= <-]. unfold attr, elem_props.
      repeat split; now read_attrs.
Qed.

(** X11: without an icon prop the option's check mark renders, through
    the icon wrapper, as an [svg] that is hidden from assistive
    technology ([aria-hidden] true, [focusable] ["false"]), has the class
    ["chakra-menu__icon"] and the check icon's view box and size, around
    one [polygon]. *)
Theorem MenuItemOption_check_mark_svg (props : obj) (ref : value) :
  truthy (prop "icon" props) = false ->
  exists wrapper label span svg,
    attr "children" (MenuItemOption props ref) = VArr [wrapper; label]
    /\ render_own Comp.MenuIcon (elem_props wrapper) = inr span
    /\ render_own Comp.CheckIcon (elem_props (attr "children" span)) = inr svg
    /\ elem_type svg = VStr "svg"
    /\ attr "aria-hidden" svg = VBool true
    /\ attr "focusable" svg = VStr "false"
    /\ attr "className" svg = VStr "chakra-menu__icon"
    /\ attr "viewBox" svg = VStr "0 0 14 14"
    /\ attr "width" svg = VStr "1em"
    /\ attr "height" svg = VStr "1em"
    /\ elem_type (attr "children" svg) = VStr "polygon".
Proof.
  intros Hi. do 4 eexists. split.
  - unfold attr, MenuItemOption, jsx, elem_props. rewrite prop_app. simpl.
    unfold js_or. rewrite Hi. reflexivity.
  - split; [reflexivity|]. split; [reflexivity|]. repeat split.
Qed.

(** *** CheckIcon *)

(** X12: the check icon's [svg] takes the caller's props over its view
    box, width and height, keeps those three where the caller gives
    none, and always has the polygon as its only child. *)
Theorem CheckIcon_defaults (props : obj) (k : string) :
  let out := CheckIcon props in
  elem_type out = VStr "svg"
  /\ (has_key k ["children"] = false ->
      get k (elem_props out)
      = match get k props with
        | Some v => Some v
        | None => get k [("viewBox", VStr "0 0 14 14");
                         ("width", VStr "1em"); ("height", VStr "1em")]
        end)
  /\ elem_type (attr "children" out) = VStr "polygon"
  /\ attr "fill" (attr "children" out) = VStr "currentColor".
Proof.
  cbv zeta. unfold attr, CheckIcon, jsx, elem_props.
  split; [reflexivity|]. split.
  - intros Hk. split_keys. rewrite get_app.
    change (get k [("children", ?c)])
      with (if k =? "children" then Some c else None).
    rewrite H. apply get_app.
  - rewrite prop_app. simpl. split; reflexivity.
Qed.

(** *** MenuGroup *)

(** X13: a group has two children, the title and then the caller's
    children.  The title is a paragraph exactly when the title prop is
    truthy, holding the title with the theme's group-title part as
    [__css]; a falsy title is handed on as it is.  The forwarded ref is
    the container's. *)
Theorem MenuGroup_title_paragraph (props : obj) (ref : value) :
  let title := prop "title" props in
  let out := MenuGroup props ref in
  exists first,
    attr "children" out = VArr [first; prop "children" props]
    /\ isValidElement first = truthy title
    /\ (truthy title = true ->
        elem_type first = VComp (Chakra "p")
        /\ attr "children" first = title
        /\ attr "__css" first = prop "groupTitle" useStyles)
    /\ (truthy title = false -> first = title)
    /\ attr "ref" out = ref
    /\ elem_type out = VComp (Chakra "div").
Proof.
  cbv zeta. eexists. split; [reflexivity|]. unfold js_and.
  destruct (truthy (prop "title" props)) eqn:Ht.
  - split; [reflexivity|]. split.
    + intros _. split; [reflexivity|].
      unfold attr, jsx, elem_props. split; now read_attrs.
    + split; [discriminate|]. split; reflexivity.
  - split; [now apply falsy_not_element|]. split; [discriminate|].
    split; [reflexivity|]. split; reflexivity.
Qed.

(** *** From an option group to its group *)

Lemma MenuGroup_titled (props : obj) (ref : value) :
  truthy (prop "title" props) = true ->
  MenuGroup props ref
  = VElem (VComp (Chakra "div"))
      [("ref", ref); ("className", VStr "chakra-menu__group");
       ("role", VStr "group");
       ("children",
        VArr [VElem (VComp (Chakra "p"))
                (([("className",
                    VStr (cx [VStr "chakra-menu__group__title";
                              prop "className" props]))]
                  ++ omit ["title"; "children"; "className"] props
                  ++ [("__css", prop "groupTitle" useStyles)])
                 ++ [("children", prop "title" props)]);
              prop "children" props])].
Proof.
  intros Ht. unfold MenuGroup, jsx, js_and. rewrite Ht. reflexivity.
Qed.

(** X14: when the hook's result has no [title] and no [className] of its
    own, a titled option group renders as a group whose container has
    the class ["chakra-menu__group"] and the role ["group"], whose title
    paragraph holds the title and has the option group's joined class
    after ["chakra-menu__group__title"], and whose other children are
    those of the hook's result. *)
Theorem MenuOptionGroup_renders_group (props : obj) :
  let ownProps := useMenuOptionGroup (omit ["className"; "title"] props) in
  get "title" ownProps = None ->
  get "className" ownProps = None ->
  truthy (prop "title" props) = true ->
  exists group title_p,
    render_own Comp.MenuGroup (elem_props (MenuOptionGroup props)) = inr group
    /\ elem_type group = VComp (Chakra "div")
    /\ attr "className" group = VStr "chakra-menu__group"
    /\ attr "role" group = VStr "group"
    /\ attr "ref" group = with_default VNull (prop "ref" ownProps)
    /\ attr "children" group = VArr [title_p; prop "children" ownProps]
    /\ elem_type title_p = VComp (Chakra "p")
    /\ attr "children" title_p = prop "title" props
    /\ attr "className" title_p
       = VStr (cx [VStr "chakra-menu__group__title";
                   VStr (cx [VStr "chakra-menu__option-group";
                             prop "className" props])])
    /\ elem_type (MenuOptionGroup props) = VComp (Own Comp.MenuGroup).
Proof.
  cbv zeta. intros Ht Hc Htitle.
  set (ownProps := useMenuOptionGroup (omit ["className"; "title"] props))
    in *.
  set (given := omit ["ref"; "key"] (elem_props (MenuOptionGroup props))).
  assert (E1 : prop "title" given = prop "title" props).
  { unfold given, MenuOptionGroup, jsx, elem_props. read_attrs.
    fold ownProps. rewrite Ht. reflexivity. }
  assert (E2 : prop "className" given
               = VStr (cx [VStr "chakra-menu__option-group";
                           prop "className" props])).
  { unfold given, MenuOptionGroup, jsx, elem_props. read_attrs.
    fold ownProps. rewrite Hc. reflexivity. }
  assert (E3 : prop "children" given = prop "children" ownProps).
  { unfold given, MenuOptionGroup, jsx, elem_props. read_attrs.
    unfold prop, ownProps. now destruct (get "children" _). }
  assert (E4 : prop "ref" (elem_props (MenuOptionGroup props))
               = prop "ref" ownProps).
  { unfold MenuOptionGroup, jsx, elem_props. read_attrs.
    unfold prop, ownProps. now destruct (get "ref" _). }
  do 2 eexists. split.
  { unfold render_own. fold given. rewrite MenuGroup_titled
      by (rewrite E1; exact Htitle).
    rewrite E1, E2, E3, E4. reflexivity. }
  split; [reflexivity|]. split; [reflexivity|]. split; [reflexivity|].
  split; [reflexivity|]. split; [reflexivity|]. split; [reflexivity|].
  unfold attr, elem_props. split; [now read_attrs|].
  split; [now read_attrs|reflexivity].
Qed.

(** *** MenuList *)

(** X15: the list's outer [chakra.div] has the positioner's props and a
    [__css] with the theme's list [zIndex] (undefined without a list
    part); the animated list inside reports its updates to the menu
    context's [onTransitionEnd], whatever [onUpdate] the hook returns,
    and has the children of the hook's result. *)
Theorem MenuList_positioner_and_update
  (props : obj) (ref : value) (k : string) :
  let out := MenuList props ref in
  let list := attr "children" out in
  elem_type out = VComp (Chakra "div")
  /\ elem_type list = VComp Motion
  /\ attr "__css" out
     = VObj [("zIndex", opt_member "zIndex" (prop "list" useStyles))]
  /\ (prop "list" useStyles = VUndef ->
      attr "__css" out = VObj [("zIndex", VUndef)]
      /\ attr "__css" list = VObj [("outline", VNum 0)])
  /\ (has_key k ["__css"; "children"] = false ->
      get k (elem_props out) = get k useMenuPositioner)
  /\ attr "onUpdate" list = prop "onTransitionEnd" useMenuContext
  /\ get "children" (elem_props list)
     = get "children" (useMenuList props ref).
Proof.
  cbv zeta.
  assert (E : attr "children" (MenuList props ref)
              = VElem (VComp Motion)
                  (useMenuList props ref ++
                   [("onUpdate", prop "onTransitionEnd" useMenuContext);
                    ("className",
                     VStr (cx [VStr "chakra-menu__menu-list";
                               prop "className" (useMenuList props ref)]));
                    ("variants", VObj motionVariants);
                    ("initial", VBool false);
                    ("animate",
                     if truthy (prop "isOpen" useMenuContext)
                     then VStr "enter" else VStr "exit");
                    ("__css", VObj ([("outline", VNum 0)]
                                    ++ spread (prop "list" useStyles)))])).
  { unfold attr, MenuList, jsx, elem_props. rewrite prop_app. reflexivity. }
  rewrite E. split; [reflexivity|]. split; [reflexivity|].
  unfold attr, MenuList, jsx, elem_props.
  split; [now read_attrs|]. split.
  { intros Hl. rewrite Hl. split; now read_attrs. }
  split.
  { intros Hk. read_attrs. now destruct (get k _). }
  split; [now read_attrs|].
  read_attrs. now destruct (get "children" _).
Qed.

End MoreProperties.

(** *** Exports and display names *)

(** X16: in a development build a component is exported under a name
    exactly when that name is its display name, and the three helper
    components (the two styled buttons and the check icon) are the ones
    without a display name; in a production build, where no assignment
    under [__DEV__] runs, no component has a display name. *)
Theorem exported_iff_display_name (name : string) (c : Comp.t) :
  (exported name exports = Some c <-> displayName true c = Some name)
  /\ (displayName true c = None <->
      c = Comp.StyledMenuButton \/ c = Comp.StyledMenuItem
      \/ c = Comp.CheckIcon)
  /\ displayName false c = None.
Proof.
  split; [|split; [|reflexivity]].
  2: { destruct c; simpl; split; intros H; try discriminate; auto;
       destruct H as [H|[H|H]]; discriminate. }
  split.
  - unfold exports. simpl.
    repeat match goal with
      | |- context [if name =? ?n then _ else _] =>
          destruct (name =? n) eqn:?E;
          [apply String.eqb_eq in E; subst; now intros [= <-]|clear E]
      end.
    discriminate.
  - destruct c; simpl; intros [= <-]; reflexivity.
Qed.

(** ** The further properties in the sample environment *)

(** A trigger with an [id] renders a button with that [id]. *)
Lemma MenuButton_sample_button :
  exists button,
    render_own Comp.StyledMenuButton
      (elem_props (MenuButton [("id", VStr "file")] VNull))
    = inr button
    /\ get "id" (elem_props button) = Some (VStr "file").
Proof.
  pose proof (MenuButton_renders_chakra_button
                [("id", VStr "file")] VNull "id" eq_refl) as H.
  cbv zeta in H. destruct H as (_ & button & Hr & _ & _ & _ & _ & Hk).
  exists button. split; [exact Hr|]. rewrite (Hk eq_refl). reflexivity.
Defined.

(** An item with a command and no icon. *)
Lemma MenuItem_sample_command :
  exists first middle last label,
    attr "children"
      (MenuItem [("command", VStr "Ctrl+C"); ("children", VStr "Copy")] VNull)
    = VArr [first; middle; last]
    /\ first = VUndef
    /\ render_own Comp.MenuCommand (elem_props last) = inr label
    /\ attr "children" label = VStr "Ctrl+C".
Proof.
  pose proof (MenuItem_icon_and_command_when_truthy
                [("command", VStr "Ctrl+C"); ("children", VStr "Copy")] VNull)
    as H.
  cbv zeta in H.
  destruct H as (first & middle & last & Hc & _ & _ & _ & Hf & _ & Hl & _).
  destruct (Hl eq_refl) as (label & Hr & Hch & _).
  exists first, middle, last, label.
  split; [exact Hc|]. split; [exact (Hf eq_refl)|]. split; [exact Hr|].
  exact Hch.
Defined.

(** An icon with a class and a title of its own. *)
Lemma MenuIcon_sample_clone :
  exists span clone_props,
    MenuIcon
      [("children",
        VElem (VStr "svg") [("className", VStr "star");
                            ("title", VStr "Star")])]
    = inr span
    /\ attr "children" span = VElem (VStr "svg") clone_props
    /\ prop "className" clone_props = VStr "chakra-menu__icon star"
    /\ get "title" clone_props = Some (VStr "Star").
Proof.
  destruct (@MenuIcon_clones_its_child sample_engine
              [("children",
                VElem (VStr "svg") [("className", VStr "star");
                                    ("title", VStr "Star")])]
              (VStr "svg")
              [("className", VStr "star"); ("title", VStr "Star")]
              "title" eq_refl)
    as (span & clone_props & Hs & _ & _ & Hc & _ & _ & Hn & Hk).
  exists span, clone_props. split; [exact Hs|]. split; [exact Hc|].
  split; [exact Hn|]. rewrite (Hk eq_refl). reflexivity.
Defined.

(** The wrapper around a check icon has an element as its child. *)
Lemma MenuIcon_sample_child :
  exists span,
    MenuIcon [("children", VElem (VComp (Own Comp.CheckIcon)) [])] = inr span
    /\ isValidElement (attr "children" span) = true.
Proof.
  eexists. split; [reflexivity|].
  apply (@MenuIcon_child_is_never_null sample_engine
           [("children", VElem (VComp (Own Comp.CheckIcon)) [])]).
  reflexivity.
Defined.

(** An item given a [title] renders a button with that title. *)
Lemma MenuItem_sample_button :
  exists button,
    render_own Comp.StyledMenuItem
      (elem_props (MenuItem [("title", VStr "Copy")] VNull))
    = inr button
    /\ attr "type" button = VStr "button"
    /\ get "title" (elem_props button) = Some (VStr "Copy").
Proof.
  pose proof (items_render_chakra_button [("title", VStr "Copy")] VNull
                "title") as H.
  cbv zeta in H. destruct H as ((button & Hr & _ & Ht & _ & Hk) & _).
  exists button. split; [exact Hr|]. split; [exact Ht|].
  rewrite (Hk eq_refl). reflexivity.
Defined.

(** An option whose icon is a string throws; one without an icon
    renders its wrapper at opacity 0. *)
Lemma MenuItemOption_sample_icons :
  (exists wrapper label,
     attr "children" (MenuItemOption [("icon", VStr "x")] VNull)
     = VArr [wrapper; label]
     /\ render_own Comp.MenuIcon (elem_props wrapper) = inl ChildrenOnly)
  /\ (exists wrapper label span,
        attr "children" (MenuItemOption [] VNull) = VArr [wrapper; label]
        /\ render_own Comp.MenuIcon (elem_props wrapper) = inr span
        /\ attr "opacity" span = VNum 0).
Proof.
  split.
  - pose proof (MenuItemOption_icon_must_be_element [("icon", VStr "x")]
                  VNull) as H.
    cbv zeta in H. destruct H as (wrapper & label & Hc & _ & Ht & _).
    exists wrapper, label. split; [exact Hc|]. exact (Ht eq_refl eq_refl).
  - pose proof (MenuItemOption_icon_must_be_element [] VNull) as H.
    cbv zeta in H. destruct H as (wrapper & label & Hc & Hiff & _ & Hs).
    destruct (proj2 Hiff (or_introl eq_refl)) as (span & Hr).
    exists wrapper, label, span. split; [exact Hc|]. split; [exact Hr|].
    exact (proj1 (Hs span Hr)).
Defined.

(** A checked option's check mark. *)
Lemma MenuItemOption_sample_check_mark :
  exists wrapper label span svg,
    attr "children" (MenuItemOption [("isChecked", VBool true)] VNull)
    = VArr [wrapper; label]
    /\ render_own Comp.MenuIcon (elem_props wrapper) = inr span
    /\ render_own Comp.CheckIcon (elem_props (attr "children" span)) = inr svg
    /\ attr "aria-hidden" svg = VBool true.
Proof.
  destruct (MenuItemOption_check_mark_svg [("isChecked", VBool true)] VNull
              eq_refl)
    as (wrapper & label & span & svg & Hc & Hs & Hv & _ & Ha & _).
  exists wrapper, label, span, svg. repeat split; assumption.
Defined.

(** A check icon given a width keeps the view box. *)
Lemma CheckIcon_sample_width :
  get "width" (elem_props (CheckIcon [("width", VStr "2em")]))
  = Some (VStr "2em")
  /\ get "viewBox" (elem_props (CheckIcon [("width", VStr "2em")]))
     = Some (VStr "0 0 14 14").
Proof.
  split.
  - pose proof (CheckIcon_defaults [("width", VStr "2em")] "width") as H.
    cbv zeta in H. destruct H as (_ & H & _). rewrite (H eq_refl).
    reflexivity.
  - pose proof (CheckIcon_defaults [("width", VStr "2em")] "viewBox") as H.
    cbv zeta in H. destruct H as (_ & H & _). rewrite (H eq_refl).
    reflexivity.
Defined.

(** A titled group and one with an empty title. *)
Lemma MenuGroup_sample_titles :
  (exists first,
     attr "children" (MenuGroup [("title", VStr "Fruits")] VNull)
     = VArr [first; VUndef]
     /\ elem_type first = VComp (Chakra "p")
     /\ attr "children" first = VStr "Fruits")
  /\ (exists first,
        attr "children" (MenuGroup [("title", VStr "")] VNull)
        = VArr [first; VUndef]
        /\ first = VStr "").
Proof.
  split.
  - pose proof (MenuGroup_title_paragraph [("title", VStr "Fruits")] VNull)
      as H.
    cbv zeta in H. destruct H as (first & Hc & _ & Ht & _).
    destruct (Ht eq_refl) as (Hp & Hch & _).
    exists first. split; [exact Hc|]. split; [exact Hp|exact Hch].
  - pose proof (MenuGroup_title_paragraph [("title", VStr "")] VNull) as H.
    cbv zeta in H. destruct H as (first & Hc & _ & _ & Hf & _).
    exists first. split; [exact Hc|exact (Hf eq_refl)].
Defined.

(** A titled option group with a class. *)
Lemma MenuOptionGroup_sample_group :
  exists group title_p,
    render_own Comp.MenuGroup
      (elem_props
         (MenuOptionGroup [("title", VStr "Order"); ("className", VStr "mine");
                           ("children", VStr "Ascending")]))
    = inr group
    /\ attr "children" group = VArr [title_p; VStr "Ascending"]
    /\ attr "className" title_p
       = VStr "chakra-menu__group__title chakra-menu__option-group mine".
Proof.
  destruct (MenuOptionGroup_renders_group (hooks := sample_hooks)
              (sys := sample_system) (js := sample_engine)
              [("title", VStr "Order"); ("className", VStr "mine");
               ("children", VStr "Ascending")] eq_refl eq_refl eq_refl)
    as (group & title_p & Hr & _ & _ & _ & _ & Hc & _ & _ & Hn & _).
  exists group, title_p. split; [exact Hr|]. split; [exact Hc|exact Hn].
Defined.

(** A list without a list part in the theme. *)
Lemma MenuList_sample_styles :
  attr "__css" (MenuList [] VNull) = VObj [("zIndex", VUndef)]
  /\ attr "__css" (attr "children" (MenuList [] VNull))
     = VObj [("outline", VNum 0)].
Proof.
  pose proof (MenuList_positioner_and_update [] VNull "id") as H.
  cbv zeta in H. destruct H as (_ & _ & _ & H & _). exact (H eq_refl).
Defined.
